(** * Options normalisation of the Sentry bundler plugin

    A shallow embedding of
    [packages/bundler-plugin-core/src/options-mapping.ts]
    ([normalizeUserOptions], [normalizeEntries], [normalizeInclude],
    [convertIncludePathToIncludeEntry], [normalizeIncludeEntry]) and the
    properties of the normalised options that follow from it.

    Conventions of the embedding:
    - an optional property ([x?: T], read as [undefined] when missing) is an
      [option T];
    - a TypeScript union is an inductive type with one constructor per
      alternative, the constructor playing the role of the run-time test
      ([typeof x === "string"], [Array.isArray x], [typeof x === "function"]);
    - [process.env] is passed explicitly, as a finite map from variable names
      to their values;
    - arrays are lists, [Array.prototype.map] is [fmap] on lists and
      [a[i]] is the list lookup [a !! i]. *)

From Stdlib Require Import Ascii.
From stdpp Require Import base option list strings gmap.

(** ** JavaScript operators *)

(** [a ?? b] where [b] may itself be [undefined]. *)
Definition nullish {A : Type} (a b : option A) : option A :=
  match a with
  | Some v => Some v
  | None => b
  end.

(** [a ?? d] where [d] is a value. *)
Definition nullishOr {A : Type} (a : option A) (d : A) : A :=
  match a with
  | Some v => v
  | None => d
  end.

Notation "a ?? b" := (nullish a b) (at level 61, left associativity).
Notation "a ??: d" := (nullishOr a d) (at level 62, left associativity).

(** [extension.replace(/^\./, "")]: the pattern is anchored at the start of
    the string and is not global, so at most the first character is removed,
    and only when it is a dot. *)
Definition replaceLeadingDot (extension : string) : string :=
  match extension with
  | String c rest => if Ascii.eqb c "."%char then rest else extension
  | EmptyString => extension
  end.

(** ** The user-facing types *)

(** The types of the user options that the normaliser only passes along. *)
Class HostTypes := {
  RegExp : Type;
  ErrorHandler : Type;
  SetCommits : Type;
  Deploy : Type
}.

(** [string | string[]], the type of the [ignore] option. *)
Inductive IgnoreOption :=
  | IgnoreString (pattern : string)
  | IgnoreArray (patterns : list string).

(** Modelled from the spec: the declaration of [IncludeEntry] in [./types],
    which is imported by the source but is not part of it. [paths] is
    required, every other field is optional; [ignore] is a string or a
    sequence of strings and [ext] a sequence of strings. *)
Module IncludeEntry.
Record t := mk {
  paths : list string;
  ignore : option IgnoreOption;
  ignoreFile : option string;
  ext : option (list string);
  urlPrefix : option string;
  urlSuffix : option string;
  stripPrefix : option (list string);
  stripCommonPrefix : option bool;
  sourceMapReference : option bool;
  rewrite : option bool;
  validate : option bool
}.
End IncludeEntry.

(** An element of an [include] array: [string | IncludeEntry]. *)
Inductive IncludeItem :=
  | ItemPath (includePath : string)
  | ItemEntry (includeEntry : IncludeEntry.t).

(** [string | IncludeEntry | Array<string | IncludeEntry>]. *)
Inductive IncludeOption :=
  | IncludePath (includePath : string)
  | IncludeSingle (includeEntry : IncludeEntry.t)
  | IncludeArray (items : list IncludeItem).

(** [string | RegExp], one matcher of the [entries] option. *)
Inductive Matcher `{HostTypes} :=
  | MatchString (s : string)
  | MatchRegExp (r : RegExp).

(** The values of the [entries] option, user-facing and internal alike: the
    normaliser returns the very value it was given in two of its branches, so
    both sides share one type. *)
Inductive Entries `{HostTypes} :=
  | EntriesMatcher (m : Matcher)
  | EntriesArray (ms : list Matcher)
  | EntriesFunction (f : string → bool).

(** Modelled from the spec: the declaration of [Options] in [./types], which
    is imported by the source but is not part of it. [include] is the only
    required option; the ten include options may also be given at the top
    level. *)
Module Options.
Record t `{HostTypes} := mk {
  include : IncludeOption;
  org : option string;
  project : option string;
  release : option string;
  authToken : option string;
  customHeader : option string;
  url : option string;
  vcsRemote : option string;
  finalize : option bool;
  cleanArtifacts : option bool;
  dryRun : option bool;
  debug : option bool;
  silent : option bool;
  telemetry : option bool;
  injectReleasesMap : option bool;
  setCommits : option SetCommits;
  deploy : option Deploy;
  entries : option Entries;
  dist : option string;
  errorHandler : option ErrorHandler;
  configFile : option string;
  ignore : option IgnoreOption;
  ignoreFile : option string;
  ext : option (list string);
  urlPrefix : option string;
  urlSuffix : option string;
  stripPrefix : option (list string);
  stripCommonPrefix : option bool;
  sourceMapReference : option bool;
  rewrite : option bool;
  validate : option bool
}.
End Options.

(** ** The internal types *)

(** [InternalIncludeEntry]: the required fields, the optional ones, and
    [ignore] as an array. *)
Module InternalIncludeEntry.
Record t := mk {
  paths : list string;
  ignore : list string;
  ignoreFile : option string;
  ext : list string;
  urlPrefix : option string;
  urlSuffix : option string;
  stripPrefix : option (list string);
  stripCommonPrefix : bool;
  sourceMapReference : bool;
  rewrite : bool;
  validate : bool
}.
End InternalIncludeEntry.

(** [InternalOptions]: [RequiredInternalOptions], [OptionalInternalOptions]
    and [NormalizedInternalOptions] together. *)
Module InternalOptions.
Record t `{HostTypes} := mk {
  include : list InternalIncludeEntry.t;
  org : option string;
  project : option string;
  release : string;
  authToken : option string;
  customHeader : option string;
  url : option string;
  vcsRemote : option string;
  finalize : bool;
  cleanArtifacts : bool;
  dryRun : bool;
  debug : bool;
  silent : bool;
  telemetry : bool;
  injectReleasesMap : bool;
  setCommits : option SetCommits;
  deploy : option Deploy;
  entries : option Entries;
  dist : option string;
  errorHandler : option ErrorHandler;
  configFile : option string
}.
End InternalOptions.

(** ** The normaliser *)

Section OptionsMapping.
Context `{HostTypes}.

(** The environment snapshot read through [process.env]. *)
Implicit Type env : gmap string string.

Definition normalizeEntries (userEntries : option Entries) : option Entries :=
  match userEntries with
  | None => None
  | Some (EntriesFunction _ | EntriesArray _) => userEntries
  | Some (EntriesMatcher m) => Some (EntriesArray [m])
  end.

Definition convertIncludePathToIncludeEntry (includePath : string)
  : IncludeEntry.t :=
  {| IncludeEntry.paths := [includePath];
     IncludeEntry.ignore := None;
     IncludeEntry.ignoreFile := None;
     IncludeEntry.ext := None;
     IncludeEntry.urlPrefix := None;
     IncludeEntry.urlSuffix := None;
     IncludeEntry.stripPrefix := None;
     IncludeEntry.stripCommonPrefix := None;
     IncludeEntry.sourceMapReference := None;
     IncludeEntry.rewrite := None;
     IncludeEntry.validate := None |}.

(** The arrow function mapped over an [include] array. *)
Definition potentialIncludeEntry (item : IncludeItem) : IncludeEntry.t :=
  match item with
  | ItemPath includePath => convertIncludePathToIncludeEntry includePath
  | ItemEntry includeEntry => includeEntry
  end.

(** The local [userInclude] of [normalizeInclude]. *)
Definition userInclude (rawUserInclude : IncludeOption)
  : list IncludeEntry.t :=
  match rawUserInclude with
  | IncludePath includePath => [convertIncludePathToIncludeEntry includePath]
  | IncludeArray items => potentialIncludeEntry <$> items
  | IncludeSingle includeEntry => [includeEntry]
  end.

(** The local [ignoreOption] of [normalizeIncludeEntry]. *)
Definition ignoreOption (userOptions : Options.t)
    (includeEntry : IncludeEntry.t) : IgnoreOption :=
  IncludeEntry.ignore includeEntry ?? Options.ignore userOptions
    ??: IgnoreArray ["node_modules"].

(** [Array.isArray(ignoreOption) ? ignoreOption : [ignoreOption]]. *)
Definition arrayify (o : IgnoreOption) : list string :=
  match o with
  | IgnoreArray patterns => patterns
  | IgnoreString pattern => [pattern]
  end.

(** The local [ext] of [normalizeIncludeEntry]. *)
Definition extOption (userOptions : Options.t)
    (includeEntry : IncludeEntry.t) : list string :=
  IncludeEntry.ext includeEntry ?? Options.ext userOptions
    ??: ["js"; "map"; "jsbundle"; "bundle"].

(** The arrow function mapped over [ext]: a template literal that puts a
    dot in front of the extension with its leading dot replaced. *)
Definition dotPrefix (extension : string) : string :=
  String "."%char (replaceLeadingDot extension).

Definition normalizeIncludeEntry (userOptions : Options.t)
    (includeEntry : IncludeEntry.t) : InternalIncludeEntry.t :=
  let ignore := arrayify (ignoreOption userOptions includeEntry) in
  let ext := extOption userOptions includeEntry in
  let dotPrefixedExt := dotPrefix <$> ext in
  {| InternalIncludeEntry.paths := IncludeEntry.paths includeEntry;
     InternalIncludeEntry.ignore := ignore;
     InternalIncludeEntry.ignoreFile :=
       IncludeEntry.ignoreFile includeEntry ?? Options.ignoreFile userOptions;
     InternalIncludeEntry.ext := dotPrefixedExt;
     InternalIncludeEntry.urlPrefix :=
       IncludeEntry.urlPrefix includeEntry ?? Options.urlPrefix userOptions;
     InternalIncludeEntry.urlSuffix :=
       IncludeEntry.urlSuffix includeEntry ?? Options.urlSuffix userOptions;
     InternalIncludeEntry.stripPrefix :=
       IncludeEntry.stripPrefix includeEntry
         ?? Options.stripPrefix userOptions;
     InternalIncludeEntry.stripCommonPrefix :=
       IncludeEntry.stripCommonPrefix includeEntry
         ?? Options.stripCommonPrefix userOptions ??: false;
     InternalIncludeEntry.sourceMapReference :=
       IncludeEntry.sourceMapReference includeEntry
         ?? Options.sourceMapReference userOptions ??: true;
     InternalIncludeEntry.rewrite :=
       IncludeEntry.rewrite includeEntry
         ?? Options.rewrite userOptions ??: true;
     InternalIncludeEntry.validate :=
       IncludeEntry.validate includeEntry
         ?? Options.validate userOptions ??: false |}.

Definition normalizeInclude (userOptions : Options.t)
  : list InternalIncludeEntry.t :=
  normalizeIncludeEntry userOptions
    <$> userInclude (Options.include userOptions).

Definition normalizeUserOptions env (userOptions : Options.t)
  : InternalOptions.t :=
  {| InternalOptions.include := normalizeInclude userOptions;
     InternalOptions.org :=
       Options.org userOptions ?? env !! "SENTRY_ORG";
     InternalOptions.project :=
       Options.project userOptions ?? env !! "SENTRY_PROJECT";
     InternalOptions.release :=
       Options.release userOptions ?? env !! "SENTRY_RELEASE" ??: "";
     InternalOptions.authToken :=
       Options.authToken userOptions ?? env !! "SENTRY_AUTH_TOKEN";
     InternalOptions.customHeader :=
       Options.customHeader userOptions ?? env !! "CUSTOM_HEADER";
     InternalOptions.url :=
       Some (Options.url userOptions ?? env !! "SENTRY_URL"
               ??: "https://sentry.io/");
     InternalOptions.vcsRemote :=
       Some (Options.vcsRemote userOptions ?? env !! "SENTRY_VCS_REMOTE"
               ??: "origin");
     InternalOptions.finalize := Options.finalize userOptions ??: true;
     InternalOptions.cleanArtifacts :=
       Options.cleanArtifacts userOptions ??: false;
     InternalOptions.dryRun := Options.dryRun userOptions ??: false;
     InternalOptions.debug := Options.debug userOptions ??: false;
     InternalOptions.silent := Options.silent userOptions ??: false;
     InternalOptions.telemetry := Options.telemetry userOptions ??: true;
     InternalOptions.injectReleasesMap :=
       Options.injectReleasesMap userOptions ??: false;
     InternalOptions.setCommits := Options.setCommits userOptions;
     InternalOptions.deploy := Options.deploy userOptions;
     InternalOptions.entries := normalizeEntries (Options.entries userOptions);
     InternalOptions.dist := Options.dist userOptions;
     InternalOptions.errorHandler := Options.errorHandler userOptions;
     InternalOptions.configFile := Options.configFile userOptions |}.

End OptionsMapping.

(** ** Vocabulary of the properties *)

(** The number of dots a string begins with. *)
Fixpoint leadingDots (s : string) : nat :=
  match s with
  | String c rest => if Ascii.eqb c "."%char then S (leadingDots rest) else 0
  | EmptyString => 0
  end.

(** The string begins with a dot. *)
Definition startsWithDot (s : string) : bool :=
  match s with
  | String c _ => Ascii.eqb c "."%char
  | EmptyString => false
  end.

(** The priority order of the include options, in the words of the
    specification: the entry's own value, else the top-level value, else the
    hardcoded default. *)
Definition resolve {A : Type} (own top : option A) (hardcoded : A) : A :=
  match own, top with
  | Some v, _ => v
  | None, Some v => v
  | None, None => hardcoded
  end.

(** The same order for an option that has no hardcoded default. *)
Definition resolveOptional {A : Type} (own top : option A) : option A :=
  match own, top with
  | Some v, _ => Some v
  | None, Some v => Some v
  | None, None => None
  end.

(** The environment variables that [normalizeUserOptions] reads. *)
Definition envVariables : list string :=
  ["SENTRY_ORG"; "SENTRY_PROJECT"; "SENTRY_RELEASE"; "SENTRY_AUTH_TOKEN";
   "CUSTOM_HEADER"; "SENTRY_URL"; "SENTRY_VCS_REMOTE"].

(** Two user options give the same ten top-level include options. *)
Definition sameIncludeDefaults `{HostTypes} (a b : Options.t) : Prop :=
  Options.ignore a = Options.ignore b ∧
  Options.ignoreFile a = Options.ignoreFile b ∧
  Options.ext a = Options.ext b ∧
  Options.urlPrefix a = Options.urlPrefix b ∧
  Options.urlSuffix a = Options.urlSuffix b ∧
  Options.stripPrefix a = Options.stripPrefix b ∧
  Options.stripCommonPrefix a = Options.stripCommonPrefix b ∧
  Options.sourceMapReference a = Options.sourceMapReference b ∧
  Options.rewrite a = Options.rewrite b ∧
  Options.validate a = Options.validate b.

(** The user options give none of the ten top-level include options. *)
Definition noIncludeDefaults `{HostTypes} (a : Options.t) : Prop :=
  Options.ignore a = None ∧
  Options.ignoreFile a = None ∧
  Options.ext a = None ∧
  Options.urlPrefix a = None ∧
  Options.urlSuffix a = None ∧
  Options.stripPrefix a = None ∧
  Options.stripCommonPrefix a = None ∧
  Options.sourceMapReference a = None ∧
  Options.rewrite a = None ∧
  Options.validate a = None.

(** The include entry gives every one of its ten optional fields. *)
Definition fullySpecified (includeEntry : IncludeEntry.t) : Prop :=
  is_Some (IncludeEntry.ignore includeEntry) ∧
  is_Some (IncludeEntry.ignoreFile includeEntry) ∧
  is_Some (IncludeEntry.ext includeEntry) ∧
  is_Some (IncludeEntry.urlPrefix includeEntry) ∧
  is_Some (IncludeEntry.urlSuffix includeEntry) ∧
  is_Some (IncludeEntry.stripPrefix includeEntry) ∧
  is_Some (IncludeEntry.stripCommonPrefix includeEntry) ∧
  is_Some (IncludeEntry.sourceMapReference includeEntry) ∧
  is_Some (IncludeEntry.rewrite includeEntry) ∧
  is_Some (IncludeEntry.validate includeEntry).

(** [{ ...userOptions, include }]: the user options with another [include]. *)
Definition withInclude `{HostTypes} (userOptions : Options.t)
    (include : IncludeOption) : Options.t :=
  {| Options.include := include;
     Options.org := Options.org userOptions;
     Options.project := Options.project userOptions;
     Options.release := Options.release userOptions;
     Options.authToken := Options.authToken userOptions;
     Options.customHeader := Options.customHeader userOptions;
     Options.url := Options.url userOptions;
     Options.vcsRemote := Options.vcsRemote userOptions;
     Options.finalize := Options.finalize userOptions;
     Options.cleanArtifacts := Options.cleanArtifacts userOptions;
     Options.dryRun := Options.dryRun userOptions;
     Options.debug := Options.debug userOptions;
     Options.silent := Options.silent userOptions;
     Options.telemetry := Options.telemetry userOptions;
     Options.injectReleasesMap := Options.injectReleasesMap userOptions;
     Options.setCommits := Options.setCommits userOptions;
     Options.deploy := Options.deploy userOptions;
     Options.entries := Options.entries userOptions;
     Options.dist := Options.dist userOptions;
     Options.errorHandler := Options.errorHandler userOptions;
     Options.configFile := Options.configFile userOptions;
     Options.ignore := Options.ignore userOptions;
     Options.ignoreFile := Options.ignoreFile userOptions;
     Options.ext := Options.ext userOptions;
     Options.urlPrefix := Options.urlPrefix userOptions;
     Options.urlSuffix := Options.urlSuffix userOptions;
     Options.stripPrefix := Options.stripPrefix userOptions;
     Options.stripCommonPrefix := Options.stripCommonPrefix userOptions;
     Options.sourceMapReference := Options.sourceMapReference userOptions;
     Options.rewrite := Options.rewrite userOptions;
     Options.validate := Options.validate userOptions |}.

(** An [InternalIncludeEntry] read as an [IncludeEntry]. The internal type
    is declared as [Required<Pick<IncludeEntry, ...>>],
    [Partial<Pick<IncludeEntry, ...>>] and [ignore: string[]], so every
    internal entry is an include entry as it stands: the required fields
    are given, the optional ones are as they are. *)
Definition asIncludeEntry (entry : InternalIncludeEntry.t) : IncludeEntry.t :=
  {| IncludeEntry.paths := InternalIncludeEntry.paths entry;
     IncludeEntry.ignore := Some (IgnoreArray (InternalIncludeEntry.ignore entry));
     IncludeEntry.ignoreFile := InternalIncludeEntry.ignoreFile entry;
     IncludeEntry.ext := Some (InternalIncludeEntry.ext entry);
     IncludeEntry.urlPrefix := InternalIncludeEntry.urlPrefix entry;
     IncludeEntry.urlSuffix := InternalIncludeEntry.urlSuffix entry;
     IncludeEntry.stripPrefix := InternalIncludeEntry.stripPrefix entry;
     IncludeEntry.stripCommonPrefix :=
       Some (InternalIncludeEntry.stripCommonPrefix entry);
     IncludeEntry.sourceMapReference :=
       Some (InternalIncludeEntry.sourceMapReference entry);
     IncludeEntry.rewrite := Some (InternalIncludeEntry.rewrite entry);
     IncludeEntry.validate := Some (InternalIncludeEntry.validate entry) |}.

(** An [InternalOptions] read as user [Options]. The internal type picks its
    fields from [Options], its [include] is an array of entries and its
    [entries] an array or a function, so the internal options are user
    options as they stand; they have no top-level include options. *)
Definition asOptions `{HostTypes} (internalOptions : InternalOptions.t)
  : Options.t :=
  {| Options.include :=
       IncludeArray
         ((λ entry, ItemEntry (asIncludeEntry entry))
            <$> InternalOptions.include internalOptions);
     Options.org := InternalOptions.org internalOptions;
     Options.project := InternalOptions.project internalOptions;
     Options.release := Some (InternalOptions.release internalOptions);
     Options.authToken := InternalOptions.authToken internalOptions;
     Options.customHeader := InternalOptions.customHeader internalOptions;
     Options.url := InternalOptions.url internalOptions;
     Options.vcsRemote := InternalOptions.vcsRemote internalOptions;
     Options.finalize := Some (InternalOptions.finalize internalOptions);
     Options.cleanArtifacts :=
       Some (InternalOptions.cleanArtifacts internalOptions);
     Options.dryRun := Some (InternalOptions.dryRun internalOptions);
     Options.debug := Some (InternalOptions.debug internalOptions);
     Options.silent := Some (InternalOptions.silent internalOptions);
     Options.telemetry := Some (InternalOptions.telemetry internalOptions);
     Options.injectReleasesMap :=
       Some (InternalOptions.injectReleasesMap internalOptions);
     Options.setCommits := InternalOptions.setCommits internalOptions;
     Options.deploy := InternalOptions.deploy internalOptions;
     Options.entries := InternalOptions.entries internalOptions;
     Options.dist := InternalOptions.dist internalOptions;
     Options.errorHandler := InternalOptions.errorHandler internalOptions;
     Options.configFile := InternalOptions.configFile internalOptions;
     Options.ignore := None;
     Options.ignoreFile := None;
     Options.ext := None;
     Options.urlPrefix := None;
     Options.urlSuffix := None;
     Options.stripPrefix := None;
     Options.stripCommonPrefix := None;
     Options.sourceMapReference := None;
     Options.rewrite := None;
     Options.validate := None |}.

(** ** Sample values *)

(** Host types for closed examples: nothing is passed along. *)
Definition noHost : HostTypes :=
  {| RegExp := Empty_set;
     ErrorHandler := Empty_set;
     SetCommits := Empty_set;
     Deploy := Empty_set |}.

(** [{ include }]: user options in which only [include] is given. *)
Definition onlyInclude `{HostTypes} (include : IncludeOption) : Options.t :=
  Options.mk _ include None None None None None None None None None None None
    None None None None None None None None None None None None None None None
    None None None None.

(** [{ paths, ignore, ext }] with [ignore] and [ext] possibly missing. *)
Definition entryWith (paths : list string) (ignore : option IgnoreOption)
    (ext : option (list string)) : IncludeEntry.t :=
  IncludeEntry.mk paths ignore None ext None None None None None None None.

(** [{ paths: ["b.js"], ext: [".js", "..map"] }]. *)
Definition dottedEntry : IncludeEntry.t :=
  entryWith ["b.js"] None (Some [".js"; "..map"]).

(** [{ paths: ["dist"], ignore: [], ext: [] }]. *)
Definition emptySequencesEntry : IncludeEntry.t :=
  entryWith ["dist"] (Some (IgnoreArray [])) (Some []).

(** [{ include: [] }]. *)
Definition emptyArrayOptions : @Options.t noHost :=
  onlyInclude (IncludeArray []).

(** [{ include: "dist" }]. *)
Definition pathOptions : @Options.t noHost :=
  onlyInclude (IncludePath "dist").

(** User options with a two-element [include], a release, some flags and
    some top-level include options:
    [{ include: ["a.js", { paths: ["b.js"], ext: [".js", "..map"] }],
       release: "1.0", finalize: false, debug: true,
       ignore: "dist", ext: ["ts"], urlPrefix: "~/" }]. *)
Definition sampleOptions : @Options.t noHost :=
  {| Options.include :=
       IncludeArray
         [ItemPath "a.js"; ItemEntry dottedEntry];
     Options.org := None;
     Options.project := None;
     Options.release := Some "1.0";
     Options.authToken := None;
     Options.customHeader := None;
     Options.url := None;
     Options.vcsRemote := None;
     Options.finalize := Some false;
     Options.cleanArtifacts := None;
     Options.dryRun := None;
     Options.debug := Some true;
     Options.silent := None;
     Options.telemetry := None;
     Options.injectReleasesMap := None;
     Options.setCommits := None;
     Options.deploy := None;
     Options.entries := Some (EntriesMatcher (MatchString "foo.js"));
     Options.dist := None;
     Options.errorHandler := None;
     Options.configFile := None;
     Options.ignore := Some (IgnoreString "dist");
     Options.ignoreFile := None;
     Options.ext := Some ["ts"];
     Options.urlPrefix := Some "~/";
     Options.urlSuffix := None;
     Options.stripPrefix := None;
     Options.stripCommonPrefix := None;
     Options.sourceMapReference := None;
     Options.rewrite := None;
     Options.validate := None |}.

(** The normalised first element of the [include] of [sampleOptions]. *)
Definition sampleEntry : InternalIncludeEntry.t :=
  normalizeIncludeEntry sampleOptions (convertIncludePathToIncludeEntry "a.js").

(** [{ paths: ["lib"], ignore: "tmp", ignoreFile: ".gitignore",
       ext: ["mjs"], urlPrefix: "~/lib", urlSuffix: "?v=1",
       stripPrefix: ["/build"], stripCommonPrefix: true,
       sourceMapReference: false, rewrite: false, validate: true }]. *)
Definition fullEntry : IncludeEntry.t :=
  IncludeEntry.mk ["lib"] (Some (IgnoreString "tmp")) (Some ".gitignore")
    (Some ["mjs"]) (Some "~/lib") (Some "?v=1") (Some ["/build"])
    (Some true) (Some false) (Some false) (Some true).

(** User options with the [include] and the top-level include options of
    [sampleOptions] and other scalar options:
    [{ include: ["a.js", { paths: ["b.js"], ext: [".js", "..map"] }],
       org: "acme", silent: true, ignore: "dist", ext: ["ts"],
       urlPrefix: "~/" }]. *)
Definition sampleOptionsOtherScalars : @Options.t noHost :=
  Options.mk noHost (IncludeArray [ItemPath "a.js"; ItemEntry dottedEntry])
    (Some "acme") None None None None None None None None None None
    (Some true) None None None None None None None None
    (Some (IgnoreString "dist")) None (Some ["ts"]) (Some "~/") None None
    None None None None.

(** An environment that sets two of the variables read and one other. *)
Definition sampleEnv : gmap string string :=
  {[ "SENTRY_ORG" := "acme"; "SENTRY_URL" := "https://sentry.acme.test/";
     "HOME" := "/home/build" ]}.

(** ** Properties of the dot coercion *)

Lemma replaceLeadingDot_dot rest :
  replaceLeadingDot (String "."%char rest) = rest.
Proof. reflexivity. Qed.

Lemma replaceLeadingDot_other s : startsWithDot s = false → replaceLeadingDot s = s.
Proof. destruct s as [|c rest]; simpl; [done|]. by intros ->. Qed.

Lemma startsWithDot_inv s :
  startsWithDot s = true → ∃ rest, s = String "."%char rest.
Proof.
  destruct s as [|c rest]; simpl; [done|].
  intros ->%Ascii.eqb_eq. by exists rest.
Qed.

Lemma dotPrefix_fixes_dotted s : startsWithDot s = true → dotPrefix s = s.
Proof. by intros [rest ->]%startsWithDot_inv. Qed.

Lemma startsWithDot_leadingDots s : startsWithDot s = true ↔ 1 ≤ leadingDots s.
Proof.
  destruct s as [|c rest]; simpl; [split; [done|lia]|].
  destruct (Ascii.eqb c "."); split; (done || lia).
Qed.

Lemma leadingDots_dotPrefix s : leadingDots (dotPrefix s) = leadingDots s `max` 1.
Proof.
  destruct (startsWithDot s) eqn:Hs.
  - rewrite dotPrefix_fixes_dotted by done.
    apply startsWithDot_leadingDots in Hs. lia.
  - unfold dotPrefix. rewrite replaceLeadingDot_other by done.
    destruct s as [|c rest]; simpl in *; [done|]. by rewrite Hs.
Qed.

Lemma dotPrefix_fmap_fixes_dotted (l : list string) :
  Forall (λ s, startsWithDot s = true) l → dotPrefix <$> l = l.
Proof.
  induction 1 as [|s l Hs _ IH]; [done|].
  rewrite fmap_cons, IH. by rewrite dotPrefix_fixes_dotted.
Qed.

(** ** Properties of the normaliser *)

Section Properties.
Context `{HostTypes}.
Implicit Type env : gmap string string.
Implicit Type userOptions : Options.t.
Implicit Type includeEntry : IncludeEntry.t.
Implicit Type entry : InternalIncludeEntry.t.

Lemma nullishOr_resolve {A : Type} (own top : option A) (hardcoded : A) :
  own ?? top ??: hardcoded = resolve own top hardcoded.
Proof. by destruct own, top. Qed.

Lemma nullish_resolveOptional {A : Type} (own top : option A) :
  own ?? top = resolveOptional own top.
Proof. by destruct own, top. Qed.

Lemma elem_of_normalizeInclude userOptions entry :
  entry ∈ normalizeInclude userOptions ↔
  ∃ includeEntry,
    includeEntry ∈ userInclude (Options.include userOptions) ∧
    entry = normalizeIncludeEntry userOptions includeEntry.
Proof.
  unfold normalizeInclude. rewrite list_elem_of_fmap.
  split; intros (includeEntry & ? & ?); by exists includeEntry.
Qed.

(** C1. Every entry of the normalised [include] stands at the position of
    the user's include entry it comes from: the entry object the user gave
    there, or, for a bare path, the entry that has this one path and no
    other field. It is that entry normalised, it has its [paths], and each
    of its optional fields is resolved in the order: the own value of that
    entry, else the top-level option of the same name, else the hardcoded
    default ([ignore]: ["node_modules"], [ext]: ["js", "map", "jsbundle",
    "bundle"], [stripCommonPrefix]: false, [sourceMapReference]: true,
    [rewrite]: true, [validate]: false). The resolved [ignore] is then made
    an array and the resolved [ext] is dot-prefixed. [ignoreFile],
    [urlPrefix], [urlSuffix] and [stripPrefix] have no default and stay
    unset when neither side gives them. *)
Theorem include_fields_resolved_by_priority userOptions entry :
  entry ∈ normalizeInclude userOptions →
  ∃ (i : nat) includeEntry,
    normalizeInclude userOptions !! i = Some entry ∧
    (match Options.include userOptions with
     | IncludePath includePath =>
         i = 0 ∧
         includeEntry =
           IncludeEntry.mk [includePath] None None None None None None None
             None None None
     | IncludeSingle own => i = 0 ∧ includeEntry = own
     | IncludeArray items =>
         items !! i = Some (ItemEntry includeEntry) ∨
         ∃ includePath : string,
           items !! i = Some (ItemPath includePath) ∧
           includeEntry =
             IncludeEntry.mk [includePath] None None None None None None None
               None None None
     end) ∧
    includeEntry ∈ userInclude (Options.include userOptions) ∧
    entry = normalizeIncludeEntry userOptions includeEntry ∧
    InternalIncludeEntry.paths entry = IncludeEntry.paths includeEntry ∧
    InternalIncludeEntry.ignore entry =
      arrayify (resolve (IncludeEntry.ignore includeEntry)
                  (Options.ignore userOptions)
                  (IgnoreArray ["node_modules"])) ∧
    InternalIncludeEntry.ext entry =
      dotPrefix <$> resolve (IncludeEntry.ext includeEntry)
                      (Options.ext userOptions)
                      ["js"; "map"; "jsbundle"; "bundle"] ∧
    InternalIncludeEntry.stripCommonPrefix entry =
      resolve (IncludeEntry.stripCommonPrefix includeEntry)
        (Options.stripCommonPrefix userOptions) false ∧
    InternalIncludeEntry.sourceMapReference entry =
      resolve (IncludeEntry.sourceMapReference includeEntry)
        (Options.sourceMapReference userOptions) true ∧
    InternalIncludeEntry.rewrite entry =
      resolve (IncludeEntry.rewrite includeEntry)
        (Options.rewrite userOptions) true ∧
    InternalIncludeEntry.validate entry =
      resolve (IncludeEntry.validate includeEntry)
        (Options.validate userOptions) false ∧
    InternalIncludeEntry.ignoreFile entry =
      resolveOptional (IncludeEntry.ignoreFile includeEntry)
        (Options.ignoreFile userOptions) ∧
    InternalIncludeEntry.urlPrefix entry =
      resolveOptional (IncludeEntry.urlPrefix includeEntry)
        (Options.urlPrefix userOptions) ∧
    InternalIncludeEntry.urlSuffix entry =
      resolveOptional (IncludeEntry.urlSuffix includeEntry)
        (Options.urlSuffix userOptions) ∧
    InternalIncludeEntry.stripPrefix entry =
      resolveOptional (IncludeEntry.stripPrefix includeEntry)
        (Options.stripPrefix userOptions) ∧
    (IncludeEntry.ignoreFile includeEntry = None →
     Options.ignoreFile userOptions = None →
     InternalIncludeEntry.ignoreFile entry = None) ∧
    (IncludeEntry.urlPrefix includeEntry = None →
     Options.urlPrefix userOptions = None →
     InternalIncludeEntry.urlPrefix entry = None) ∧
    (IncludeEntry.urlSuffix includeEntry = None →
     Options.urlSuffix userOptions = None →
     InternalIncludeEntry.urlSuffix entry = None) ∧
    (IncludeEntry.stripPrefix includeEntry = None →
     Options.stripPrefix userOptions = None →
     InternalIncludeEntry.stripPrefix entry = None).
Proof.
  intros [i Hi]%list_elem_of_lookup.
  assert (∃ includeEntry,
            userInclude (Options.include userOptions) !! i = Some includeEntry ∧
            entry = normalizeIncludeEntry userOptions includeEntry)
    as (includeEntry & Hown & ->).
  { unfold normalizeInclude in Hi. rewrite list_lookup_fmap in Hi.
    destruct (userInclude (Options.include userOptions) !! i)
      as [includeEntry|]; [|done].
    exists includeEntry. by injection Hi as <-. }
  exists i, includeEntry. split; [done|]. split.
  { destruct (Options.include userOptions) as [includePath|own|items];
      cbn [userInclude] in Hown.
    - destruct i as [|i]; [|done]. by injection Hown as <-.
    - destruct i as [|i]; [|done]. by injection Hown as <-.
    - rewrite list_lookup_fmap in Hown.
      destruct (items !! i) as [[includePath|own]|]; [| |done].
      + right. exists includePath. by injection Hown as <-.
      + left. by injection Hown as <-. }
  split; [by apply list_elem_of_lookup; exists i|].
  split; [done|]. split; [done|].
  unfold normalizeIncludeEntry, ignoreOption, extOption; simpl.
  rewrite !nullishOr_resolve, !nullish_resolveOptional.
  repeat split; by intros -> ->.
Qed.

(** C2, as the code has it. Every string of a normalised [ext] begins with
    a dot. It is the dot-prefixed form of a string of the resolved [ext]; it
    begins with exactly one dot when that string begins with at most one,
    and it is that string itself, with all its dots, when it begins with two
    or more. *)
Theorem ext_strings_begin_with_dot userOptions entry s :
  entry ∈ normalizeInclude userOptions →
  s ∈ InternalIncludeEntry.ext entry →
  1 ≤ leadingDots s ∧
  ∃ includeEntry extension,
    includeEntry ∈ userInclude (Options.include userOptions) ∧
    extension ∈ extOption userOptions includeEntry ∧
    s = dotPrefix extension ∧
    (leadingDots extension ≤ 1 → leadingDots s = 1) ∧
    (2 ≤ leadingDots extension → s = extension).
Proof.
  intros (includeEntry & Hin & ->)%elem_of_normalizeInclude.
  simpl. intros (extension & -> & Hext)%list_elem_of_fmap.
  rewrite leadingDots_dotPrefix. split; [lia|].
  exists includeEntry, extension. repeat split; try done; [lia|].
  intros Hdots. apply dotPrefix_fixes_dotted, startsWithDot_leadingDots. lia.
Qed.

(** C3, as the code has it. The normalised [include] has one entry when the
    user [include] is a path or a single entry, and as many entries as the
    user sequence when it is a sequence; so it is non-empty unless the user
    [include] is the empty sequence. *)
Theorem include_nonempty_unless_empty_array userOptions :
  length (normalizeInclude userOptions) =
    match Options.include userOptions with
    | IncludePath _ | IncludeSingle _ => 1
    | IncludeArray items => length items
    end ∧
  (Options.include userOptions ≠ IncludeArray [] →
   normalizeInclude userOptions ≠ []).
Proof.
  unfold normalizeInclude. rewrite length_fmap.
  destruct (Options.include userOptions) as [p|e|items]; cbn [userInclude].
  - done.
  - done.
  - split; [apply length_fmap|]. by destruct items.
Qed.

(** C4. [normalizeEntries] leaves an unset value unset, returns a predicate
    function or a sequence of matchers as it is, and wraps a single matcher
    into a one-element sequence. *)
Theorem normalizeEntries_cases :
  normalizeEntries None = None ∧
  (∀ f, normalizeEntries (Some (EntriesFunction f)) = Some (EntriesFunction f)) ∧
  (∀ ms, normalizeEntries (Some (EntriesArray ms)) = Some (EntriesArray ms)) ∧
  (∀ m, normalizeEntries (Some (EntriesMatcher m)) = Some (EntriesArray [m])) ∧
  (∀ env userOptions,
     InternalOptions.entries (normalizeUserOptions env userOptions) =
       normalizeEntries (Options.entries userOptions)).
Proof. by repeat split. Qed.

(** C5. An entry that gives the empty sequence for [ignore] (for [ext])
    keeps it, whatever the top-level options are, whereas an entry that
    omits the field gets the top-level value or the default, which for
    options without top-level [ignore] or [ext] is not empty. *)
Theorem explicit_empty_sequence_kept userOptions includeEntry :
  (IncludeEntry.ignore includeEntry = Some (IgnoreArray []) →
   InternalIncludeEntry.ignore
     (normalizeIncludeEntry userOptions includeEntry) = []) ∧
  (IncludeEntry.ext includeEntry = Some [] →
   InternalIncludeEntry.ext
     (normalizeIncludeEntry userOptions includeEntry) = []) ∧
  (IncludeEntry.ignore includeEntry = None →
   Options.ignore userOptions = None →
   InternalIncludeEntry.ignore
     (normalizeIncludeEntry userOptions includeEntry) = ["node_modules"]) ∧
  (IncludeEntry.ext includeEntry = None →
   Options.ext userOptions = None →
   InternalIncludeEntry.ext
     (normalizeIncludeEntry userOptions includeEntry) =
     [".js"; ".map"; ".jsbundle"; ".bundle"]).
Proof.
  unfold normalizeIncludeEntry, ignoreOption, extOption; simpl.
  repeat split.
  - by intros ->.
  - by intros ->.
  - by intros -> ->.
  - by intros -> ->.
Qed.

(** C6. When the [ext] of an entry consists of strings that begin with a
    dot, the normalised [ext] is that very sequence. *)
Theorem dotted_ext_unchanged userOptions includeEntry (exts : list string) :
  IncludeEntry.ext includeEntry = Some exts →
  Forall (λ s, startsWithDot s = true) exts →
  InternalIncludeEntry.ext (normalizeIncludeEntry userOptions includeEntry)
    = exts.
Proof.
  intros Hext Hdots. unfold normalizeIncludeEntry, extOption; simpl.
  rewrite Hext. simpl. by apply dotPrefix_fmap_fixes_dotted.
Qed.

(** C7. The normalised [release] is the user's [release] when given, else
    the value of SENTRY_RELEASE in the environment when set, else the empty
    string. *)
Theorem release_resolution env userOptions :
  (∀ r, Options.release userOptions = Some r →
        InternalOptions.release (normalizeUserOptions env userOptions) = r) ∧
  (∀ r, Options.release userOptions = None →
        env !! "SENTRY_RELEASE" = Some r →
        InternalOptions.release (normalizeUserOptions env userOptions) = r) ∧
  (Options.release userOptions = None →
   env !! "SENTRY_RELEASE" = None →
   InternalOptions.release (normalizeUserOptions env userOptions) = "").
Proof.
  simpl. repeat split.
  - by intros r ->.
  - by intros r -> ->.
  - by intros -> ->.
Qed.

(** C8. When the user omits them, [finalize] and [telemetry] are true and
    [cleanArtifacts], [dryRun], [debug], [silent] and [injectReleasesMap]
    are false; a value the user gives is returned as it is. *)
Theorem boolean_defaults env userOptions :
  let internalOptions := normalizeUserOptions env userOptions in
  (Options.finalize userOptions = None →
   InternalOptions.finalize internalOptions = true) ∧
  (Options.telemetry userOptions = None →
   InternalOptions.telemetry internalOptions = true) ∧
  (Options.cleanArtifacts userOptions = None →
   InternalOptions.cleanArtifacts internalOptions = false) ∧
  (Options.dryRun userOptions = None →
   InternalOptions.dryRun internalOptions = false) ∧
  (Options.debug userOptions = None →
   InternalOptions.debug internalOptions = false) ∧
  (Options.silent userOptions = None →
   InternalOptions.silent internalOptions = false) ∧
  (Options.injectReleasesMap userOptions = None →
   InternalOptions.injectReleasesMap internalOptions = false) ∧
  (∀ b, Options.finalize userOptions = Some b →
        InternalOptions.finalize internalOptions = b) ∧
  (∀ b, Options.telemetry userOptions = Some b →
        InternalOptions.telemetry internalOptions = b) ∧
  (∀ b, Options.cleanArtifacts userOptions = Some b →
        InternalOptions.cleanArtifacts internalOptions = b) ∧
  (∀ b, Options.dryRun userOptions = Some b →
        InternalOptions.dryRun internalOptions = b) ∧
  (∀ b, Options.debug userOptions = Some b →
        InternalOptions.debug internalOptions = b) ∧
  (∀ b, Options.silent userOptions = Some b →
        InternalOptions.silent internalOptions = b) ∧
  (∀ b, Options.injectReleasesMap userOptions = Some b →
        InternalOptions.injectReleasesMap internalOptions = b).
Proof.
  simpl. repeat split; first [by intros -> | by intros b ->].
Qed.

(** C9. When the user [include] is a sequence, the normalised [include] has
    the same length, and its i-th entry is the normalised i-th element: a
    path becomes the entry with that one path, an entry object is
    normalised as it is. The empty sequence gives the empty sequence. *)
Theorem include_array_pointwise userOptions (items : list IncludeItem) :
  Options.include userOptions = IncludeArray items →
  length (normalizeInclude userOptions) = length items ∧
  (∀ i includePath,
     items !! i = Some (ItemPath includePath) →
     normalizeInclude userOptions !! i =
       Some (normalizeIncludeEntry userOptions
               (convertIncludePathToIncludeEntry includePath)) ∧
     InternalIncludeEntry.paths
       (normalizeIncludeEntry userOptions
          (convertIncludePathToIncludeEntry includePath)) = [includePath]) ∧
  (∀ i includeEntry,
     items !! i = Some (ItemEntry includeEntry) →
     normalizeInclude userOptions !! i =
       Some (normalizeIncludeEntry userOptions includeEntry)) ∧
  (∀ i, items !! i = None → normalizeInclude userOptions !! i = None) ∧
  (items = [] → normalizeInclude userOptions = []).
Proof.
  intros Hinclude. unfold normalizeInclude. rewrite Hinclude.
  cbn [userInclude]. rewrite !length_fmap.
  split; [done|]. split; [|split; [|split]].
  - intros i includePath Hi. by rewrite !list_lookup_fmap, Hi.
  - intros i includeEntry Hi. by rewrite !list_lookup_fmap, Hi.
  - intros i Hi. by rewrite !list_lookup_fmap, Hi.
  - by intros ->.
Qed.

(** C10. The dot coercion removes at most one leading dot before it puts a
    dot in front: a string that begins with two or more dots is returned as
    it is, and the empty string becomes ".". *)
Theorem dotPrefix_two_dots_and_empty :
  (∀ s, 2 ≤ leadingDots s → dotPrefix s = s) ∧
  dotPrefix "..js" = "..js" ∧
  dotPrefix "" = "." ∧
  (∀ userOptions includeEntry (exts : list string),
     IncludeEntry.ext includeEntry = Some exts →
     InternalIncludeEntry.ext (normalizeIncludeEntry userOptions includeEntry)
       = dotPrefix <$> exts).
Proof.
  repeat split.
  - intros s Hs. apply dotPrefix_fixes_dotted, startsWithDot_leadingDots. lia.
  - intros userOptions includeEntry exts Hext.
    unfold normalizeIncludeEntry, extOption; simpl. by rewrite Hext.
Qed.

End Properties.

(** ** Closed instances *)

Example sampleOptions_normalised :
  InternalOptions.include (normalizeUserOptions ∅ sampleOptions) =
    [InternalIncludeEntry.mk ["a.js"] ["dist"] None [".ts"] (Some "~/")
       None None false true true false;
     InternalIncludeEntry.mk ["b.js"] ["dist"] None [".js"; "..map"]
       (Some "~/") None None false true true false].
Proof. reflexivity. Qed.

Lemma sampleEntry_in : sampleEntry ∈ normalizeInclude sampleOptions.
Proof. apply list_elem_of_fmap_2. cbn. left. Defined.

Lemma include_fields_resolved_by_priority_witness :
  sampleEntry ∈ normalizeInclude sampleOptions ∧
  ∃ (i : nat) includeEntry,
    normalizeInclude sampleOptions !! i = Some sampleEntry ∧
    sampleEntry = normalizeIncludeEntry sampleOptions includeEntry ∧
    InternalIncludeEntry.paths sampleEntry = IncludeEntry.paths includeEntry ∧
    InternalIncludeEntry.ignore sampleEntry =
      arrayify (resolve (IncludeEntry.ignore includeEntry)
                  (Options.ignore sampleOptions)
                  (IgnoreArray ["node_modules"])) ∧
    InternalIncludeEntry.validate sampleEntry =
      resolve (IncludeEntry.validate includeEntry)
        (Options.validate sampleOptions) false.
Proof.
  split; [exact sampleEntry_in|].
  destruct (include_fields_resolved_by_priority sampleOptions sampleEntry
              sampleEntry_in)
    as (i & includeEntry & Hi & _ & _ & Hentry & Hpaths & Hignore & _ & _
        & _ & _ & Hvalidate & _).
  exists i, includeEntry. repeat split; assumption.
Defined.

Lemma sampleEntry_ext : ".ts" ∈ InternalIncludeEntry.ext sampleEntry.
Proof. cbn. left. Defined.

Lemma ext_strings_begin_with_dot_witness :
  sampleEntry ∈ normalizeInclude sampleOptions ∧
  ".ts" ∈ InternalIncludeEntry.ext sampleEntry ∧
  1 ≤ leadingDots ".ts".
Proof.
  split; [exact sampleEntry_in|]. split; [exact sampleEntry_ext|].
  exact (proj1 (ext_strings_begin_with_dot sampleOptions sampleEntry ".ts"
                  sampleEntry_in sampleEntry_ext)).
Defined.

(** C2 fails as stated: the second entry of [sampleOptions] gives
    [ext: [".js", "..map"]], and "..map" comes out with its two dots. *)
Lemma ext_exactly_one_dot_counterexample :
  normalizeIncludeEntry sampleOptions dottedEntry
    ∈ normalizeInclude sampleOptions ∧
  "..map" ∈ InternalIncludeEntry.ext
              (normalizeIncludeEntry sampleOptions dottedEntry) ∧
  leadingDots "..map" ≠ 1.
Proof.
  split; [|split].
  - apply list_elem_of_fmap_2. cbn. right. left.
  - cbn. right. left.
  - discriminate.
Qed.

Lemma include_nonempty_unless_empty_array_witness :
  Options.include sampleOptions ≠ IncludeArray [] ∧
  normalizeInclude sampleOptions ≠ [].
Proof.
  split; [discriminate|].
  apply (proj2 (include_nonempty_unless_empty_array sampleOptions)).
  discriminate.
Defined.

(** C3 fails as stated: [include: []] is a provided sequence, and its
    normalised form has no entry. *)
Lemma include_empty_array_counterexample :
  Options.include emptyArrayOptions = IncludeArray [] ∧
  ¬ (1 ≤ length (normalizeInclude emptyArrayOptions)).
Proof. cbn. split; [reflexivity|lia]. Qed.

Lemma explicit_empty_sequence_kept_witness :
  Options.ignore sampleOptions = Some (IgnoreString "dist") ∧
  Options.ext sampleOptions = Some ["ts"] ∧
  InternalIncludeEntry.ignore
    (normalizeIncludeEntry sampleOptions emptySequencesEntry) = [] ∧
  InternalIncludeEntry.ext
    (normalizeIncludeEntry sampleOptions emptySequencesEntry) = [].
Proof.
  split; [reflexivity|]. split; [reflexivity|].
  destruct (explicit_empty_sequence_kept sampleOptions emptySequencesEntry)
    as (Hignore & Hext & _).
  split; [apply Hignore|apply Hext]; reflexivity.
Defined.

Lemma dotted_ext_unchanged_witness :
  Forall (λ s, startsWithDot s = true) [".js"; "..map"] ∧
  InternalIncludeEntry.ext (normalizeIncludeEntry sampleOptions dottedEntry)
    = [".js"; "..map"].
Proof.
  assert (Hdots : Forall (λ s, startsWithDot s = true) [".js"; "..map"])
    by (repeat constructor).
  split; [exact Hdots|].
  apply (dotted_ext_unchanged sampleOptions dottedEntry); [reflexivity|].
  exact Hdots.
Defined.

Lemma release_resolution_witness :
  InternalOptions.release (normalizeUserOptions ∅ sampleOptions) = "1.0" ∧
  InternalOptions.release
    (normalizeUserOptions {[ "SENTRY_RELEASE" := "2.0" ]} pathOptions) = "2.0" ∧
  InternalOptions.release (normalizeUserOptions ∅ pathOptions) = "".
Proof.
  split; [|split].
  - apply (proj1 (release_resolution ∅ sampleOptions)). reflexivity.
  - apply (proj1 (proj2 (release_resolution
                           {[ "SENTRY_RELEASE" := "2.0" ]} pathOptions)));
      reflexivity.
  - apply (proj2 (proj2 (release_resolution ∅ pathOptions))); reflexivity.
Defined.

Lemma boolean_defaults_witness :
  InternalOptions.telemetry (normalizeUserOptions ∅ sampleOptions) = true ∧
  InternalOptions.silent (normalizeUserOptions ∅ sampleOptions) = false ∧
  InternalOptions.finalize (normalizeUserOptions ∅ sampleOptions) = false ∧
  InternalOptions.debug (normalizeUserOptions ∅ sampleOptions) = true.
Proof.
  destruct (boolean_defaults ∅ sampleOptions)
    as (_ & Htelemetry & _ & _ & _ & Hsilent & _ & Hfinalize & _ & _ & _
        & Hdebug & _).
  split; [apply Htelemetry; reflexivity|].
  split; [apply Hsilent; reflexivity|].
  split; [apply Hfinalize; reflexivity|apply Hdebug; reflexivity].
Defined.

Lemma include_array_pointwise_witness :
  length (normalizeInclude sampleOptions) = 2 ∧
  normalizeInclude sampleOptions !! 0 = Some sampleEntry ∧
  normalizeInclude sampleOptions !! 2 = None.
Proof.
  destruct (include_array_pointwise sampleOptions _ eq_refl)
    as (Hlength & Hpath & _ & Hnone & _).
  split; [exact Hlength|].
  split; [apply (Hpath 0 "a.js"); reflexivity|apply Hnone; reflexivity].
Defined.

Lemma dotPrefix_two_dots_and_empty_witness :
  2 ≤ leadingDots "...js" ∧ dotPrefix "...js" = "...js".
Proof.
  assert (Hdots : 2 ≤ leadingDots "...js") by (cbn; lia).
  split; [exact Hdots|].
  exact (proj1 (dotPrefix_two_dots_and_empty (H := noHost)) "...js" Hdots).
Defined.

(** ** Further properties of the normaliser *)

Lemma nullish_None_r {A : Type} (a : option A) : a ?? None = a.
Proof. by destruct a. Qed.

Lemma nullish_absorb {A : Type} (a b : option A) : a ?? b ?? b = a ?? b.
Proof. by destruct a, b. Qed.

Lemma dotPrefix_dotPrefix s : dotPrefix (dotPrefix s) = dotPrefix s.
Proof. reflexivity. Qed.

Lemma dotPrefix_fmap_dotPrefix (exts : list string) :
  dotPrefix <$> (dotPrefix <$> exts) = dotPrefix <$> exts.
Proof.
  rewrite <- list_fmap_compose. apply list_fmap_ext.
  intros _ s _. apply dotPrefix_dotPrefix.
Qed.

Section FurtherProperties.
Context `{HostTypes}.
Implicit Type env : gmap string string.
Implicit Type userOptions : Options.t.
Implicit Type includeEntry : IncludeEntry.t.
Implicit Type entry : InternalIncludeEntry.t.

Lemma normalizeIncludeEntry_same_defaults (a b : Options.t) includeEntry :
  sameIncludeDefaults a b →
  normalizeIncludeEntry a includeEntry = normalizeIncludeEntry b includeEntry.
Proof.
  intros (Hi & Hif & He & Hup & Hus & Hsp & Hscp & Hsmr & Hr & Hv).
  unfold normalizeIncludeEntry, ignoreOption, extOption.
  by rewrite Hi, Hif, He, Hup, Hus, Hsp, Hscp, Hsmr, Hr, Hv.
Qed.

Lemma sameIncludeDefaults_withInclude userOptions include :
  sameIncludeDefaults (withInclude userOptions include) userOptions.
Proof. by repeat split. Qed.

Lemma normalizeInclude_withInclude userOptions include :
  normalizeInclude (withInclude userOptions include) =
    normalizeIncludeEntry userOptions <$> userInclude include.
Proof.
  unfold normalizeInclude. cbn [withInclude Options.include].
  apply list_fmap_ext. intros _ includeEntry _.
  apply normalizeIncludeEntry_same_defaults, sameIncludeDefaults_withInclude.
Qed.

Lemma normalizeIncludeEntry_asIncludeEntry (a b : Options.t) includeEntry :
  Options.ignoreFile a = Options.ignoreFile b ∨ Options.ignoreFile a = None →
  Options.urlPrefix a = Options.urlPrefix b ∨ Options.urlPrefix a = None →
  Options.urlSuffix a = Options.urlSuffix b ∨ Options.urlSuffix a = None →
  Options.stripPrefix a = Options.stripPrefix b ∨ Options.stripPrefix a = None →
  normalizeIncludeEntry a
    (asIncludeEntry (normalizeIncludeEntry b includeEntry)) =
  normalizeIncludeEntry b includeEntry.
Proof.
  intros Hif Hup Hus Hsp.
  unfold normalizeIncludeEntry, ignoreOption, extOption; simpl.
  rewrite dotPrefix_fmap_dotPrefix.
  f_equal.
  - destruct Hif as [-> | ->]; [apply nullish_absorb|apply nullish_None_r].
  - destruct Hup as [-> | ->]; [apply nullish_absorb|apply nullish_None_r].
  - destruct Hus as [-> | ->]; [apply nullish_absorb|apply nullish_None_r].
  - destruct Hsp as [-> | ->]; [apply nullish_absorb|apply nullish_None_r].
Qed.

(** X1. The dot coercion is idempotent, on one extension and on a whole
    [ext] sequence, and removing the leading dot of its result gives the
    extension without its leading dot. *)
Theorem dotPrefix_idempotent :
  (∀ s, dotPrefix (dotPrefix s) = dotPrefix s) ∧
  (∀ exts : list string,
     dotPrefix <$> (dotPrefix <$> exts) = dotPrefix <$> exts) ∧
  (∀ s, replaceLeadingDot (dotPrefix s) = replaceLeadingDot s).
Proof.
  split; [apply dotPrefix_dotPrefix|].
  split; [apply dotPrefix_fmap_dotPrefix|]. reflexivity.
Qed.

(** X2. An extension written without a leading dot and the same extension
    written with one are normalised to the same string, the dotted one; and
    two extensions are normalised to the same string exactly when they are
    equal once one leading dot is removed. *)
Theorem dotPrefix_with_or_without_dot (s t : string) :
  (startsWithDot s = false →
   dotPrefix s = String "."%char s ∧ dotPrefix (String "."%char s) = dotPrefix s) ∧
  (dotPrefix s = dotPrefix t ↔ replaceLeadingDot s = replaceLeadingDot t).
Proof.
  split.
  - intros Hs. unfold dotPrefix at 1 3.
    by rewrite replaceLeadingDot_other by done.
  - unfold dotPrefix. split; [by intros [= ->]|by intros ->].
Qed.

(** X3. [normalizeUserOptions] reads the environment in the seven variables
    of [envVariables] only: two environments that agree on them give the
    same internal options. *)
Theorem normalizeUserOptions_env_footprint env1 env2 userOptions :
  Forall (λ name, env1 !! name = env2 !! name) envVariables →
  normalizeUserOptions env1 userOptions = normalizeUserOptions env2 userOptions.
Proof.
  unfold envVariables. rewrite !Forall_cons.
  intros (Ho & Hp & Hr & Ha & Hc & Hu & Hv & _).
  unfold normalizeUserOptions. by rewrite Ho, Hp, Hr, Ha, Hc, Hu, Hv.
Qed.

(** X4. [org], [project], [authToken] and [customHeader] are the user's
    value when given, whatever the environment holds, and else exactly what
    the environment holds for SENTRY_ORG, SENTRY_PROJECT, SENTRY_AUTH_TOKEN
    and CUSTOM_HEADER: they stay unset when that variable is not set. *)
Theorem environment_backed_options env userOptions :
  let internalOptions := normalizeUserOptions env userOptions in
  (∀ v, Options.org userOptions = Some v →
        InternalOptions.org internalOptions = Some v) ∧
  (∀ v, Options.project userOptions = Some v →
        InternalOptions.project internalOptions = Some v) ∧
  (∀ v, Options.authToken userOptions = Some v →
        InternalOptions.authToken internalOptions = Some v) ∧
  (∀ v, Options.customHeader userOptions = Some v →
        InternalOptions.customHeader internalOptions = Some v) ∧
  (Options.org userOptions = None →
   InternalOptions.org internalOptions = env !! "SENTRY_ORG") ∧
  (Options.project userOptions = None →
   InternalOptions.project internalOptions = env !! "SENTRY_PROJECT") ∧
  (Options.authToken userOptions = None →
   InternalOptions.authToken internalOptions = env !! "SENTRY_AUTH_TOKEN") ∧
  (Options.customHeader userOptions = None →
   InternalOptions.customHeader internalOptions = env !! "CUSTOM_HEADER").
Proof.
  simpl. repeat split; first [by intros v -> | by intros ->].
Qed.

(** X5. [url] and [vcsRemote] are set in every result: to the user's value
    when given, else to SENTRY_URL (SENTRY_VCS_REMOTE) when the environment
    sets it, else to "https://sentry.io/" ("origin"). *)
Theorem url_and_vcsRemote_always_set env userOptions :
  let internalOptions := normalizeUserOptions env userOptions in
  is_Some (InternalOptions.url internalOptions) ∧
  is_Some (InternalOptions.vcsRemote internalOptions) ∧
  (∀ v, Options.url userOptions = Some v →
        InternalOptions.url internalOptions = Some v) ∧
  (∀ v, Options.url userOptions = None → env !! "SENTRY_URL" = Some v →
        InternalOptions.url internalOptions = Some v) ∧
  (Options.url userOptions = None → env !! "SENTRY_URL" = None →
   InternalOptions.url internalOptions = Some "https://sentry.io/") ∧
  (∀ v, Options.vcsRemote userOptions = Some v →
        InternalOptions.vcsRemote internalOptions = Some v) ∧
  (∀ v, Options.vcsRemote userOptions = None →
        env !! "SENTRY_VCS_REMOTE" = Some v →
        InternalOptions.vcsRemote internalOptions = Some v) ∧
  (Options.vcsRemote userOptions = None →
   env !! "SENTRY_VCS_REMOTE" = None →
   InternalOptions.vcsRemote internalOptions = Some "origin").
Proof.
  simpl. repeat split;
    first [by eexists | by intros v -> | by intros v -> -> | by intros -> ->].
Qed.

(** X6. The result of [normalizeEntries] is never a bare matcher, and
    normalising it again changes nothing. *)
Theorem normalizeEntries_idempotent (userEntries : option Entries) :
  (∀ m, normalizeEntries userEntries ≠ Some (EntriesMatcher m)) ∧
  normalizeEntries (normalizeEntries userEntries) = normalizeEntries userEntries.
Proof. by destruct userEntries as [[m|ms|f]|]. Qed.

(** X7. The shapes of [include] agree: a path, the one-element sequence
    of that path, the entry object that has only that path and the
    one-element sequence of that object are normalised to the same
    one-entry sequence; so are an entry object and the one-element sequence
    of it. *)
Theorem include_shapes_agree userOptions (includePath : string) includeEntry :
  let single := [normalizeIncludeEntry userOptions
                   (convertIncludePathToIncludeEntry includePath)] in
  normalizeInclude (withInclude userOptions (IncludePath includePath))
    = single ∧
  normalizeInclude
    (withInclude userOptions (IncludeArray [ItemPath includePath])) = single ∧
  normalizeInclude
    (withInclude userOptions
       (IncludeSingle (convertIncludePathToIncludeEntry includePath)))
    = single ∧
  normalizeInclude
    (withInclude userOptions
       (IncludeArray
          [ItemEntry (convertIncludePathToIncludeEntry includePath)]))
    = single ∧
  normalizeInclude (withInclude userOptions (IncludeSingle includeEntry)) =
    normalizeInclude
      (withInclude userOptions (IncludeArray [ItemEntry includeEntry])).
Proof. cbn zeta. by rewrite !normalizeInclude_withInclude. Qed.

(** X8. Normalisation of an [include] sequence works element by element:
    the normalised concatenation of two sequences is the concatenation of
    their normalised forms, and each element gives the entry it gives when
    it is the whole [include]. *)
Theorem include_array_concatenation userOptions (items1 items2 : list IncludeItem) :
  normalizeInclude (withInclude userOptions (IncludeArray (items1 ++ items2))) =
    normalizeInclude (withInclude userOptions (IncludeArray items1))
      ++ normalizeInclude (withInclude userOptions (IncludeArray items2)) ∧
  (∀ (includePath : string) items,
     normalizeInclude
       (withInclude userOptions (IncludeArray (ItemPath includePath :: items))) =
       normalizeInclude (withInclude userOptions (IncludePath includePath))
         ++ normalizeInclude (withInclude userOptions (IncludeArray items))) ∧
  (∀ includeEntry items,
     normalizeInclude
       (withInclude userOptions (IncludeArray (ItemEntry includeEntry :: items))) =
       normalizeInclude (withInclude userOptions (IncludeSingle includeEntry))
         ++ normalizeInclude (withInclude userOptions (IncludeArray items))).
Proof.
  rewrite !normalizeInclude_withInclude. cbn [userInclude].
  split; [by rewrite !fmap_app|].
  split; intros; by rewrite !normalizeInclude_withInclude.
Qed.

(** X9. The normalised [include] depends on the user options through
    [include] and the ten top-level include options only: user options that
    agree on these give the same entries, whatever their other options. *)
Theorem normalizeInclude_footprint (a b : Options.t) :
  Options.include a = Options.include b →
  sameIncludeDefaults a b →
  normalizeInclude a = normalizeInclude b.
Proof.
  intros Hinclude Hsame. unfold normalizeInclude. rewrite Hinclude.
  apply list_fmap_ext. intros _ includeEntry _.
  by apply normalizeIncludeEntry_same_defaults.
Qed.

(** X10. An entry that gives all of its ten optional fields is normalised
    without regard to the top-level options: a top-level option never
    replaces a value of the entry. *)
Theorem fully_specified_entry_ignores_top_level (a b : Options.t) includeEntry :
  fullySpecified includeEntry →
  normalizeIncludeEntry a includeEntry = normalizeIncludeEntry b includeEntry.
Proof.
  intros ([i Hi] & [f Hf] & [e He] & [up Hup] & [us Hus] & [sp Hsp]
          & [scp Hscp] & [smr Hsmr] & [r Hr] & [v Hv]).
  unfold normalizeIncludeEntry, ignoreOption, extOption.
  by rewrite Hi, Hf, He, Hup, Hus, Hsp, Hscp, Hsmr, Hr, Hv.
Qed.

(** X11. A bare string for [ignore] and the one-element sequence of that
    string are normalised alike, to the one-element sequence: when the
    entry gives it, and when the entry gives no [ignore] and the top level
    does. *)
Theorem ignore_string_as_singleton userOptions includeEntry (pattern : string) :
  (IncludeEntry.ignore includeEntry = Some (IgnoreString pattern) ∨
   IncludeEntry.ignore includeEntry = Some (IgnoreArray [pattern]) →
   InternalIncludeEntry.ignore
     (normalizeIncludeEntry userOptions includeEntry) = [pattern]) ∧
  (IncludeEntry.ignore includeEntry = None →
   Options.ignore userOptions = Some (IgnoreString pattern) ∨
   Options.ignore userOptions = Some (IgnoreArray [pattern]) →
   InternalIncludeEntry.ignore
     (normalizeIncludeEntry userOptions includeEntry) = [pattern]).
Proof.
  unfold normalizeIncludeEntry, ignoreOption; simpl. split.
  - by intros [-> | ->].
  - by intros -> [-> | ->].
Qed.

(** X12. [paths] is never defaulted nor changed: the [paths] of the
    normalised entries are, in order, the [paths] of the entries of the
    user [include], a bare path standing for the one-element [paths] of
    it, be it the whole [include] or an element of the sequence. *)
Theorem paths_preserved userOptions :
  InternalIncludeEntry.paths <$> normalizeInclude userOptions =
    IncludeEntry.paths <$> userInclude (Options.include userOptions) ∧
  (∀ includePath : string,
     Options.include userOptions = IncludePath includePath →
     InternalIncludeEntry.paths <$> normalizeInclude userOptions
       = [[includePath]]) ∧
  (∀ includeEntry,
     Options.include userOptions = IncludeSingle includeEntry →
     InternalIncludeEntry.paths <$> normalizeInclude userOptions
       = [IncludeEntry.paths includeEntry]) ∧
  (∀ items : list IncludeItem,
     Options.include userOptions = IncludeArray items →
     InternalIncludeEntry.paths <$> normalizeInclude userOptions =
       (λ item, match item with
                | ItemPath includePath => [includePath]
                | ItemEntry includeEntry => IncludeEntry.paths includeEntry
                end) <$> items ∧
     (∀ (i : nat) (includePath : string),
        items !! i = Some (ItemPath includePath) →
        InternalIncludeEntry.paths <$> normalizeInclude userOptions !! i
          = Some [includePath]) ∧
     (∀ (i : nat) includeEntry,
        items !! i = Some (ItemEntry includeEntry) →
        InternalIncludeEntry.paths <$> normalizeInclude userOptions !! i
          = Some (IncludeEntry.paths includeEntry))).
Proof.
  unfold normalizeInclude.
  split; [rewrite <- list_fmap_compose; by apply list_fmap_ext|].
  split; [by intros x ->|]. split; [by intros x ->|].
  intros items ->. cbn [userInclude]. split; [|split].
  - rewrite <- !list_fmap_compose. apply list_fmap_ext.
    by intros _ [includePath|includeEntry] _.
  - intros i includePath Hi. by rewrite !list_lookup_fmap, Hi.
  - intros i includeEntry Hi. by rewrite !list_lookup_fmap, Hi.
Qed.

(** X13. With no top-level include option, a bare path is normalised to
    one entry that has this path and every default: [ignore]
    ["node_modules"], [ext] [".js", ".map", ".jsbundle", ".bundle"], no
    [ignoreFile], [urlPrefix], [urlSuffix], [stripPrefix], and the flags
    false, true, true, false. *)
Theorem bare_path_gets_defaults userOptions (includePath : string) :
  noIncludeDefaults userOptions →
  Options.include userOptions = IncludePath includePath →
  normalizeInclude userOptions =
    [InternalIncludeEntry.mk [includePath] ["node_modules"] None
       [".js"; ".map"; ".jsbundle"; ".bundle"] None None None
       false true true false].
Proof.
  intros (Hi & Hif & He & Hup & Hus & Hsp & Hscp & Hsmr & Hr & Hv) Hinclude.
  unfold normalizeInclude. rewrite Hinclude. cbn [userInclude fmap list_fmap].
  unfold normalizeIncludeEntry, ignoreOption, extOption.
  by rewrite Hi, Hif, He, Hup, Hus, Hsp, Hscp, Hsmr, Hr, Hv.
Qed.

(** X14. A normalised entry is self-contained. Read as an include entry
    and normalised again, it is unchanged: under the same user options,
    and under any user options that give no top-level [ignoreFile],
    [urlPrefix], [urlSuffix] and [stripPrefix]. *)
Theorem normalizeIncludeEntry_idempotent (a b : Options.t) includeEntry :
  normalizeIncludeEntry b
    (asIncludeEntry (normalizeIncludeEntry b includeEntry)) =
  normalizeIncludeEntry b includeEntry ∧
  (Options.ignoreFile a = None → Options.urlPrefix a = None →
   Options.urlSuffix a = None → Options.stripPrefix a = None →
   normalizeIncludeEntry a
     (asIncludeEntry (normalizeIncludeEntry b includeEntry)) =
   normalizeIncludeEntry b includeEntry).
Proof.
  split.
  - apply normalizeIncludeEntry_asIncludeEntry; by left.
  - intros. apply normalizeIncludeEntry_asIncludeEntry; by right.
Qed.

(** X15. [normalizeUserOptions] is idempotent: internal options read as
    user options are normalised, in the same environment, to themselves. *)
Theorem normalizeUserOptions_idempotent env userOptions :
  normalizeUserOptions env (asOptions (normalizeUserOptions env userOptions))
    = normalizeUserOptions env userOptions.
Proof.
  unfold normalizeUserOptions at 1 3.
  cbn [asOptions normalizeUserOptions
       Options.include Options.org Options.project Options.release
       Options.authToken Options.customHeader Options.url Options.vcsRemote
       Options.finalize Options.cleanArtifacts Options.dryRun Options.debug
       Options.silent Options.telemetry Options.injectReleasesMap
       Options.setCommits Options.deploy Options.entries Options.dist
       Options.errorHandler Options.configFile
       InternalOptions.include InternalOptions.org InternalOptions.project
       InternalOptions.release InternalOptions.authToken
       InternalOptions.customHeader InternalOptions.url
       InternalOptions.vcsRemote InternalOptions.finalize
       InternalOptions.cleanArtifacts InternalOptions.dryRun
       InternalOptions.debug InternalOptions.silent InternalOptions.telemetry
       InternalOptions.injectReleasesMap InternalOptions.setCommits
       InternalOptions.deploy InternalOptions.entries InternalOptions.dist
       InternalOptions.errorHandler InternalOptions.configFile
       nullish nullishOr].
  f_equal.
  - unfold normalizeInclude at 1.
    change (Options.include (asOptions (normalizeUserOptions env userOptions)))
      with (IncludeArray ((λ entry, ItemEntry (asIncludeEntry entry))
                            <$> normalizeInclude userOptions)).
    cbn [userInclude]. unfold normalizeInclude.
    rewrite <- !list_fmap_compose.
    apply list_fmap_ext. intros _ includeEntry _.
    cbn [compose potentialIncludeEntry].
    apply normalizeIncludeEntry_asIncludeEntry; by right.
  - by destruct (Options.org userOptions), (env !! "SENTRY_ORG").
  - by destruct (Options.project userOptions), (env !! "SENTRY_PROJECT").
  - by destruct (Options.authToken userOptions), (env !! "SENTRY_AUTH_TOKEN").
  - by destruct (Options.customHeader userOptions), (env !! "CUSTOM_HEADER").
  - by destruct (Options.entries userOptions) as [[m|ms|f]|].
Qed.

End FurtherProperties.

(** ** Closed instances of the further properties *)

Lemma dotPrefix_with_or_without_dot_witness :
  startsWithDot "js" = false ∧
  dotPrefix "js" = ".js" ∧ dotPrefix ".js" = dotPrefix "js".
Proof.
  split; [reflexivity|].
  exact (proj1 (dotPrefix_with_or_without_dot "js" "") eq_refl).
Defined.

Lemma sampleEnv_agrees :
  Forall (λ name, (∅ : gmap string string) !! name
                  = ({[ "HOME" := "/home/build" ]} : gmap string string) !! name)
    envVariables.
Proof. repeat (constructor; [vm_compute; reflexivity|]). constructor. Defined.

Lemma normalizeUserOptions_env_footprint_witness :
  Forall (λ name, (∅ : gmap string string) !! name
                  = ({[ "HOME" := "/home/build" ]} : gmap string string) !! name)
    envVariables ∧
  normalizeUserOptions ∅ sampleOptions =
    normalizeUserOptions {[ "HOME" := "/home/build" ]} sampleOptions.
Proof.
  split; [exact sampleEnv_agrees|].
  exact (normalizeUserOptions_env_footprint _ _ sampleOptions sampleEnv_agrees).
Defined.

Lemma environment_backed_options_witness :
  InternalOptions.org (normalizeUserOptions sampleEnv sampleOptionsOtherScalars)
    = Some "acme" ∧
  InternalOptions.org (normalizeUserOptions sampleEnv sampleOptions)
    = sampleEnv !! "SENTRY_ORG" ∧
  InternalOptions.project (normalizeUserOptions sampleEnv sampleOptions)
    = sampleEnv !! "SENTRY_PROJECT".
Proof.
  destruct (environment_backed_options sampleEnv sampleOptions)
    as (_ & _ & _ & _ & Horg & Hproject & _).
  split; [|split; [apply Horg|apply Hproject]; reflexivity].
  apply (proj1 (environment_backed_options sampleEnv sampleOptionsOtherScalars)).
  reflexivity.
Defined.

Lemma url_and_vcsRemote_always_set_witness :
  InternalOptions.url (normalizeUserOptions sampleEnv sampleOptions)
    = Some "https://sentry.acme.test/" ∧
  InternalOptions.url (normalizeUserOptions ∅ sampleOptions)
    = Some "https://sentry.io/" ∧
  InternalOptions.vcsRemote (normalizeUserOptions sampleEnv sampleOptions)
    = Some "origin".
Proof.
  destruct (url_and_vcsRemote_always_set sampleEnv sampleOptions)
    as (_ & _ & _ & Hurl & _ & _ & _ & Hvcs).
  destruct (url_and_vcsRemote_always_set ∅ sampleOptions)
    as (_ & _ & _ & _ & Hdefault & _).
  split; [apply Hurl; [reflexivity|vm_compute; reflexivity]|].
  split; [apply Hdefault; reflexivity|].
  apply Hvcs; [reflexivity|vm_compute; reflexivity].
Defined.

Lemma normalizeEntries_idempotent_witness :
  normalizeEntries (H := noHost) (Some (EntriesMatcher (MatchString "foo.js")))
    ≠ Some (EntriesMatcher (MatchString "foo.js")).
Proof.
  exact (proj1 (normalizeEntries_idempotent
                  (Some (EntriesMatcher (MatchString "foo.js")))) _).
Defined.

Lemma sampleOptions_same_defaults :
  sameIncludeDefaults sampleOptions sampleOptionsOtherScalars.
Proof. repeat split. Defined.

Lemma normalizeInclude_footprint_witness :
  Options.include sampleOptions = Options.include sampleOptionsOtherScalars ∧
  sameIncludeDefaults sampleOptions sampleOptionsOtherScalars ∧
  normalizeInclude sampleOptions = normalizeInclude sampleOptionsOtherScalars.
Proof.
  split; [reflexivity|]. split; [exact sampleOptions_same_defaults|].
  exact (normalizeInclude_footprint sampleOptions sampleOptionsOtherScalars
           eq_refl sampleOptions_same_defaults).
Defined.

Lemma fullEntry_fullySpecified : fullySpecified fullEntry.
Proof. repeat split; eexists; reflexivity. Defined.

Lemma fully_specified_entry_ignores_top_level_witness :
  fullySpecified fullEntry ∧
  normalizeIncludeEntry sampleOptions fullEntry =
    normalizeIncludeEntry pathOptions fullEntry.
Proof.
  split; [exact fullEntry_fullySpecified|].
  exact (fully_specified_entry_ignores_top_level sampleOptions pathOptions
           fullEntry fullEntry_fullySpecified).
Defined.

Lemma ignore_string_as_singleton_witness :
  InternalIncludeEntry.ignore (normalizeIncludeEntry pathOptions fullEntry)
    = ["tmp"] ∧
  InternalIncludeEntry.ignore (normalizeIncludeEntry sampleOptions dottedEntry)
    = ["dist"].
Proof.
  split.
  - apply (proj1 (ignore_string_as_singleton pathOptions fullEntry "tmp")).
    left. reflexivity.
  - apply (proj2 (ignore_string_as_singleton sampleOptions dottedEntry "dist"));
      [reflexivity|left; reflexivity].
Defined.

Lemma paths_preserved_witness :
  Options.include pathOptions = IncludePath "dist" ∧
  InternalIncludeEntry.paths <$> normalizeInclude pathOptions = [["dist"]] ∧
  InternalIncludeEntry.paths <$> normalizeInclude sampleOptions
    = [["a.js"]; ["b.js"]].
Proof.
  split; [reflexivity|]. split.
  - exact (proj1 (proj2 (paths_preserved pathOptions)) "dist" eq_refl).
  - exact (proj1 (proj2 (proj2 (proj2 (paths_preserved sampleOptions)))
                    _ eq_refl)).
Defined.

Lemma pathOptions_noIncludeDefaults : noIncludeDefaults pathOptions.
Proof. repeat split. Defined.

Lemma bare_path_gets_defaults_witness :
  noIncludeDefaults pathOptions ∧
  Options.include pathOptions = IncludePath "dist" ∧
  normalizeInclude pathOptions =
    [InternalIncludeEntry.mk ["dist"] ["node_modules"] None
       [".js"; ".map"; ".jsbundle"; ".bundle"] None None None
       false true true false].
Proof.
  split; [exact pathOptions_noIncludeDefaults|]. split; [reflexivity|].
  exact (bare_path_gets_defaults pathOptions "dist"
           pathOptions_noIncludeDefaults eq_refl).
Defined.

Lemma normalizeIncludeEntry_idempotent_witness :
  Options.urlPrefix pathOptions = None ∧
  normalizeIncludeEntry pathOptions
    (asIncludeEntry (normalizeIncludeEntry sampleOptions dottedEntry)) =
  normalizeIncludeEntry sampleOptions dottedEntry.
Proof.
  split; [reflexivity|].
  apply (proj2 (normalizeIncludeEntry_idempotent pathOptions sampleOptions
                  dottedEntry)); reflexivity.
Defined.
